(** * Chatterbox TTS: the environment checker [1_setup_environment.py]

    A shallow embedding of the script and the properties of its checks and
    of its driver.

    The script only reads the host (interpreter attributes, [platform],
    a child process, the file system, the network, an optional [torch])
    and prints.  The host is a record [env] of what each query answers; a
    query that can raise answers an [outcome].  A Python function becomes a
    computation [M A]: the texts it printed, in order, and how it ended
    (returned a value or raised).  [print] itself is taken to succeed. *)

From Stdlib Require Import ZArith String List Bool Ascii DecimalString Lia.
Import ListNotations.
Local Open Scope string_scope.
Local Open Scope list_scope.

(** ** Python values, exceptions and the computation monad *)

Module Py.

(** A class of exceptions is given by its linearised bases (its MRO without
    [object]), most derived first: this is what [except C] inspects. *)
Definition pyclass := list string.

Definition BaseException : pyclass := ["BaseException"].
Definition KeyboardInterrupt : pyclass := "KeyboardInterrupt" :: BaseException.
Definition SystemExit : pyclass := "SystemExit" :: BaseException.
Definition Exception : pyclass := "Exception" :: BaseException.
Definition RuntimeError : pyclass := "RuntimeError" :: Exception.
Definition AttributeError : pyclass := "AttributeError" :: Exception.
Definition ImportError : pyclass := "ImportError" :: Exception.
Definition ModuleNotFoundError : pyclass := "ModuleNotFoundError" :: ImportError.
Definition OSError : pyclass := "OSError" :: Exception.
Definition FileNotFoundError : pyclass := "FileNotFoundError" :: OSError.
Definition PermissionError : pyclass := "PermissionError" :: OSError.
Definition TimeoutError : pyclass := "TimeoutError" :: OSError.
Definition ConnectionError : pyclass := "ConnectionError" :: OSError.
Definition ConnectionRefusedError : pyclass :=
  "ConnectionRefusedError" :: ConnectionError.
Definition URLError : pyclass := "URLError" :: OSError.
Definition SubprocessError : pyclass := "SubprocessError" :: Exception.
Definition CalledProcessError : pyclass :=
  "CalledProcessError" :: SubprocessError.

(** A raised exception: its class and [str(e)]. *)
Record exn : Type := mk_exn { exn_class : pyclass; exn_text : string }.

(** [isinstance(x, C)] for the class named [C]. *)
Definition isinstance (x : exn) (C : string) : bool :=
  existsb (String.eqb C) (exn_class x).

(** How a call ends. *)
Inductive outcome (A : Type) : Type :=
| Ret (a : A)
| Raise (x : exn).
Arguments Ret {A} a.
Arguments Raise {A} x.

(** A computation: the texts printed (one per [print] call, in order) and
    the outcome. *)
Definition M (A : Type) : Type := (list string * outcome A)%type.

Definition ret {A} (a : A) : M A := ([], Ret a).
Definition raise {A} (x : exn) : M A := ([], Raise x).

Definition bind {A B} (m : M A) (f : A -> M B) : M B :=
  match m with
  | (o, Ret a) => let (o', r) := f a in (o ++ o', r)
  | (o, Raise x) => (o, Raise x)
  end.

(** A query of the host: prints nothing. *)
Definition call {A} (q : outcome A) : M A := ([], q).

(** [try: body  except C: handler] *)
Definition try_except {A} (body : M A) (C : string) (handler : exn -> M A)
  : M A :=
  match body with
  | (o, Ret a) => (o, Ret a)
  | (o, Raise x) =>
      if isinstance x C
      then let (o', r) := handler x in (o ++ o', r)
      else (o, Raise x)
  end.

Definition printed {A} (m : M A) : list string := fst m.
Definition result {A} (m : M A) : outcome A := snd m.

Definition returns {A} (m : M A) : bool :=
  match result m with Ret _ => true | Raise _ => false end.

Definition print (text : string) : M unit := ([text], Ret tt).

(** [str(n)] for an [int]. *)
Definition str_int (n : Z) : string := NilZero.string_of_int (Z.to_int n).
Definition str_nat (n : nat) : string := NilZero.string_of_uint (Nat.to_uint n).

Definition nl : string := String (ascii_of_nat 10) "".

(** [s * n] *)
Definition str_mul (s : string) (n : nat) : string :=
  String.concat "" (List.repeat s n).

(** The characters [str.strip()] removes, among the 7-bit ones: tab, line
    feed, vertical tab, form feed, carriage return, the four separators
    0x1c-0x1f and the space. *)
Definition isspace (c : ascii) : bool :=
  let n := nat_of_ascii c in
  ((9 <=? n) && (n <=? 13) || (28 <=? n) && (n <=? 32))%nat.

Fixpoint lstrip (s : string) : string :=
  match s with
  | String c s' => if isspace c then lstrip s' else s
  | EmptyString => EmptyString
  end.

Fixpoint rstrip (s : string) : string :=
  match s with
  | String c s' =>
      match rstrip s' with
      | EmptyString => if isspace c then EmptyString else String c EmptyString
      | t => String c t
      end
  | EmptyString => EmptyString
  end.

Definition strip (s : string) : string := rstrip (lstrip s).

(** [f"{n / (1024**3):.2f}"] for a non-negative [int] [n]: the quotient by
    2^30 rounded to two decimals, ties to even.  The float quotient is the
    exact one for n < 2^53, where this is the text Python prints. *)
Definition hundredths_of_gb (n : N) : N :=
  let q := (n * 100 / 2 ^ 30)%N in
  let r := (n * 100 mod 2 ^ 30)%N in
  if (2 ^ 30 <? 2 * r)%N then (q + 1)%N
  else if ((2 * r =? 2 ^ 30) && N.odd q)%N then (q + 1)%N
  else q.

Definition two_digits (n : N) : string :=
  (if (n <? 10)%N then "0" else "") ++ NilZero.string_of_uint (N.to_uint n).

Definition fmt_gb_2f (n : N) : string :=
  let h := hundredths_of_gb n in
  NilZero.string_of_uint (N.to_uint (h / 100)) ++ "." ++ two_digits (h mod 100).

(** [free_gb >= 10] for [free_gb = n / (1024**3)]: the float quotient is
    monotone in [n] and 10 * 2^30 / 2^30 is exactly 10. *)
Definition gb_ge_10 (n : N) : bool := (10 * 2 ^ 30 <=? n)%N.

End Py.

Declare Scope py_scope.
Delimit Scope py_scope with py.
Notation "x <- m ;; k" := (Py.bind m (fun x => k))
  (at level 61, m at next level, right associativity) : py_scope.
Notation "m ;; k" := (Py.bind m (fun _ => k))
  (at level 61, right associativity) : py_scope.

(** ** The host the script queries *)

Module Host.
Import Py.

(** [sys.version_info] *)
Record version_info : Type :=
  { major : Z; minor : Z; micro : Z }.

(** What [subprocess.run] gets back from a child that was launched. *)
Record CompletedProcess : Type :=
  { returncode : Z; stdout : string }.

(** The two fields of [os.statvfs] the script reads. *)
Record statvfs_result : Type :=
  { f_bavail : N; f_frsize : N }.

(** The part of [torch.cuda] the script calls, once [import torch] worked;
    [total_memory i] is [get_device_properties(i).total_memory]. *)
Record torch_cuda : Type :=
  { is_available : outcome bool;
    device_count : outcome Z;
    get_device_name : Z -> outcome string;
    total_memory : Z -> outcome N }.

Record env : Type :=
  { sys_version_info : version_info;
    sys_executable : string;
    (** [None]: the attribute is absent ([hasattr] is false) *)
    sys_real_prefix : option string;
    sys_base_prefix : option string;
    sys_prefix : string;
    platform_system : string;
    platform_release : string;
    platform_platform : string;
    platform_machine : string;
    platform_processor : string;
    (** launching [sys.executable -m pip --version] and waiting for it:
        raises when the child cannot be launched or its output decoded *)
    spawn_pip : outcome CompletedProcess;
    os_getcwd : outcome string;
    os_statvfs : string -> outcome statvfs_result;
    import_ctypes : outcome unit;
    (** [free_bytes.value] after the call on that path *)
    GetDiskFreeSpaceExW : string -> outcome N;
    import_urllib_request : outcome unit;
    (** [urlopen('https://pypi.org', timeout=5)] *)
    urlopen_pypi : outcome unit;
    import_torch : outcome torch_cuda }.

End Host.

(** ** The script *)

Module Setup.
Import Py Host.
Local Open Scope string_scope.
Local Open Scope py_scope.

(** [subprocess.run(cmd, capture_output=True, text=True, check=True)] for
    the pip command: with [check], a non-zero return code is turned into
    [CalledProcessError]. *)
Definition subprocess_run_check (e : env) : M CompletedProcess :=
  p <- call (spawn_pip e) ;;
  if (returncode p =? 0)%Z then ret p
  else raise (mk_exn CalledProcessError
                ("Command '['" ++ sys_executable e
                 ++ "', '-m', 'pip', '--version']' returned non-zero exit status "
                 ++ str_int (returncode p) ++ ".")).

(** [range(n)] *)
Definition range (n : Z) : list Z := map Z.of_nat (seq 0 (Z.to_nat n)).

(** [for x in xs: body] *)
Fixpoint for_each {A} (xs : list A) (body : A -> M unit) : M unit :=
  match xs with
  | [] => ret tt
  | x :: xs' => body x ;; for_each xs' body
  end.

(** The number of characters of a UTF-8 text: the bytes that are not
    continuation bytes [10xxxxxx]. *)
Fixpoint len_chars (s : string) : nat :=
  match s with
  | EmptyString => 0
  | String c s' =>
      let n := nat_of_ascii c in
      (if (128 <=? n) && (n <? 192) then 0 else 1) + len_chars s'
  end%nat.

(** [f"{s:8}"]: left-justified in a field of [width] characters. *)
Definition ljust (s : string) (width : nat) : string :=
  s ++ str_mul " " (width - len_chars s).

Definition print_header (text : string) : M unit :=
  print (nl ++ str_mul "=" 60) ;;
  print ("  " ++ text) ;;
  print (str_mul "=" 60 ++ nl).

Definition print_success (text : string) : M unit := print ("✓ " ++ text).
Definition print_warning (text : string) : M unit := print ("⚠ " ++ text).
Definition print_error (text : string) : M unit := print ("✗ " ++ text).

Definition check_python_version (e : env) : M bool :=
  print_header "Checking Python Version" ;;
  let version := sys_version_info e in
  let version_str :=
    str_int (major version) ++ "." ++ str_int (minor version) ++ "."
    ++ str_int (micro version) in
  print ("Python version: " ++ version_str) ;;
  print ("Python executable: " ++ sys_executable e) ;;
  if ((major version =? 3) && (minor version >=? 10))%Z then
    print_success ("Python " ++ version_str ++ " is compatible!") ;;
    ret true
  else
    print_error ("Python " ++ version_str ++ " is not supported") ;;
    print "   Please install Python 3.10 or 3.11" ;;
    print "   Download from: https://www.python.org/downloads/" ;;
    ret false.

Definition check_system_info (e : env) : M bool :=
  print_header "System Information" ;;
  print ("Operating System: " ++ platform_system e ++ " " ++ platform_release e) ;;
  print ("Platform: " ++ platform_platform e) ;;
  print ("Architecture: " ++ platform_machine e) ;;
  print ("Processor: " ++ platform_processor e) ;;
  ret true.

Definition check_pip (e : env) : M bool :=
  print_header "Checking pip (Package Manager)" ;;
  try_except
    (result <- subprocess_run_check e ;;
     print (strip (stdout result)) ;;
     print_success "pip is installed and working!" ;;
     ret true)
    "CalledProcessError"
    (fun _ =>
       print_error "pip is not installed or not working" ;;
       print "   Install pip: python -m ensurepip --upgrade" ;;
       ret false).

(** [hasattr(sys, 'real_prefix') or (hasattr(sys, 'base_prefix') and
    sys.base_prefix != sys.prefix)] *)
Definition in_venv (e : env) : bool :=
  match sys_real_prefix e with
  | Some _ => true
  | None =>
      match sys_base_prefix e with
      | Some base => negb (String.eqb base (sys_prefix e))
      | None => false
      end
  end.

Definition check_venv (e : env) : M bool :=
  print_header "Checking Virtual Environment" ;;
  if in_venv e then
    print_success "You are in a virtual environment!" ;;
    print ("   Environment: " ++ sys_prefix e) ;;
    ret true
  else
    print_warning "You are NOT in a virtual environment" ;;
    print (nl ++ "Recommended: Create and activate a virtual environment first:") ;;
    print (nl ++ "  Option A (Conda):") ;;
    print "    conda create -n chatterbox python=3.11 -y" ;;
    print "    conda activate chatterbox" ;;
    print (nl ++ "  Option B (venv):") ;;
    print "    python -m venv chatterbox_env" ;;
    (if String.eqb (platform_system e) "Windows" then
       print "    chatterbox_env\Scripts\activate"
     else
       print "    source chatterbox_env/bin/activate") ;;
    print (nl ++ "Then run this script again.") ;;
    ret false.

(** The measurement at the head of [check_disk_space]'s [try] block: the
    free bytes of the volume of the working directory, [free_gb] before its
    division by [1024**3]. *)
Definition free_bytes_query (e : env) : M N :=
  if String.eqb (platform_system e) "Windows" then
    call (import_ctypes e) ;;
    cwd <- call (os_getcwd e) ;;
    call (GetDiskFreeSpaceExW e cwd)
  else
    cwd <- call (os_getcwd e) ;;
    stat <- call (os_statvfs e cwd) ;;
    ret (f_bavail stat * f_frsize stat)%N.

Definition check_disk_space (e : env) : M bool :=
  print_header "Checking Disk Space" ;;
  try_except
    (free <- free_bytes_query e ;;
     print ("Available disk space: " ++ fmt_gb_2f free ++ " GB") ;;
     if gb_ge_10 free then
       print_success "Sufficient disk space available" ;;
       ret true
     else
       print_warning ("Low disk space: " ++ fmt_gb_2f free ++ " GB") ;;
       print "   Recommended: At least 10 GB free for models and dependencies" ;;
       ret true)
    "Exception"
    (fun x =>
       print_warning ("Could not check disk space: " ++ exn_text x) ;;
       ret true).

Definition check_internet (e : env) : M bool :=
  print_header "Checking Internet Connection" ;;
  try_except
    (call (import_urllib_request e) ;;
     call (urlopen_pypi e) ;;
     print_success "Internet connection OK" ;;
     ret true)
    "Exception"
    (fun _ =>
       print_error "No internet connection detected" ;;
       print "   Internet is required to download models and dependencies" ;;
       ret false).

Definition check_gpu (e : env) : M bool :=
  print_header "Checking GPU Availability (Optional)" ;;
  print "Attempting to detect CUDA-capable GPU..." ;;
  print "(This requires PyTorch, which will be installed in step 2)" ;;
  try_except
    (torch <- call (import_torch e) ;;
     available <- call (is_available torch) ;;
     if available : bool then
       gpu_count <- call (device_count torch) ;;
       print_success ("CUDA GPU detected: " ++ str_int gpu_count ++ " device(s)") ;;
       for_each (range gpu_count) (fun i =>
         gpu_name <- call (get_device_name torch i) ;;
         gpu_memory <- call (total_memory torch i) ;;
         print ("   GPU " ++ str_int i ++ ": " ++ gpu_name) ;;
         print ("   Memory: " ++ fmt_gb_2f gpu_memory ++ " GB")) ;;
       ret true
     else
       print_warning "No CUDA GPU detected" ;;
       print "   TTS will run on CPU (slower but functional)" ;;
       ret true)
    "ImportError"
    (fun _ =>
       print_warning "PyTorch not installed yet" ;;
       print "   GPU detection will happen after running 2_install_dependencies.py" ;;
       ret true).

(** The first half of [main]: the seven checks, each appended to [checks]
    with its name. *)
Definition main_checks (e : env) : M (list (string * bool)) :=
  let checks : list (string * bool) := [] in
  r <- check_python_version e ;;
  let checks := (checks ++ [("Python Version", r)])%list in
  r <- check_system_info e ;;
  let checks := (checks ++ [("System Info", r)])%list in
  r <- check_pip e ;;
  let checks := (checks ++ [("pip", r)])%list in
  r <- check_venv e ;;
  let checks := (checks ++ [("Virtual Environment", r)])%list in
  r <- check_disk_space e ;;
  let checks := (checks ++ [("Disk Space", r)])%list in
  r <- check_internet e ;;
  let checks := (checks ++ [("Internet", r)])%list in
  r <- check_gpu e ;;
  let checks := (checks ++ [("GPU (Optional)", r)])%list in
  ret checks.

(** [sum(1 for _, result in checks if result)] *)
Definition count_passed (checks : list (string * bool)) : nat :=
  list_sum (map (fun _ => 1%nat) (filter (fun c => snd c) checks)).

Definition summary_row (c : string * bool) : string :=
  let (check_name, result) := c in
  let status := if result then "✓ PASS" else "✗ FAIL" in
  ljust status 8 ++ " - " ++ check_name.

Definition success_closing : M unit :=
  print (nl ++ str_mul "=" 60) ;;
  print_success "All checks passed! You're ready for the next step." ;;
  print (nl ++ "Next step: Run the dependency installer:") ;;
  print "  python 2_install_dependencies.py" ;;
  print (str_mul "=" 60 ++ nl).

Definition warning_closing : M unit :=
  print (nl ++ str_mul "=" 60) ;;
  print_warning "Some checks failed. Please fix the issues above." ;;
  print (nl ++ "Tip: Make sure you're in a virtual environment!") ;;
  print (str_mul "=" 60 ++ nl).

(** The second half of [main]: the summary of the collected [checks] and
    the value [main] returns. *)
Definition main_summary (checks : list (string * bool)) : M Z :=
  print_header "SETUP CHECK SUMMARY" ;;
  let passed := count_passed checks in
  let total := length checks in
  for_each checks (fun c => print (summary_row c)) ;;
  print (nl ++ str_nat passed ++ "/" ++ str_nat total ++ " checks passed") ;;
  if (passed =? total)%nat then
    success_closing ;;
    ret 0%Z
  else
    warning_closing ;;
    ret 1%Z.

Definition main (e : env) : M Z :=
  print (nl ++ str_mul "=" 60) ;;
  print "  CHATTERBOX TTS - ENVIRONMENT SETUP CHECKER" ;;
  print "  Step 1 of 5: Verify Your System" ;;
  print (str_mul "=" 60) ;;
  checks <- main_checks e ;;
  main_summary checks.

(** How the process ends. *)
Inductive termination : Type :=
| Exited (status : Z)
| Uncaught (x : exn).

(** [if __name__ == "__main__": sys.exit(main())] *)
Definition dunder_main (e : env) : list string * termination :=
  match main e with
  | (o, Ret code) => (o, Exited code)
  | (o, Raise x) => (o, Uncaught x)
  end.

(** Two hosts answer alike what decides the checks: the interpreter's
    version and prefix attributes, the pip child, the free-space
    measurement, the import and request of the network check, and the state
    of [torch].  The interpreter's path and the [platform] texts are left
    free. *)
Definition same_queried_state (e1 e2 : env) : Prop :=
  sys_version_info e1 = sys_version_info e2
  /\ sys_real_prefix e1 = sys_real_prefix e2
  /\ sys_base_prefix e1 = sys_base_prefix e2
  /\ sys_prefix e1 = sys_prefix e2
  /\ spawn_pip e1 = spawn_pip e2
  /\ result (free_bytes_query e1) = result (free_bytes_query e2)
  /\ import_urllib_request e1 = import_urllib_request e2
  /\ urlopen_pypi e1 = urlopen_pypi e2
  /\ import_torch e1 = import_torch e2.

End Setup.

(** ** Some hosts *)

Module Hosts.
Import Py Host.
Local Open Scope string_scope.

(** No [torch] yet: [import torch] raises [ModuleNotFoundError]. *)
Definition no_torch : outcome torch_cuda :=
  Raise (mk_exn ModuleNotFoundError "No module named 'torch'").

(** [torch] with two devices. *)
Definition two_gpus : torch_cuda :=
  {| is_available := Ret true;
     device_count := Ret 2%Z;
     get_device_name := fun i => Ret (if (i =? 0)%Z then "NVIDIA A100" else "NVIDIA T4");
     total_memory := fun i => Ret (if (i =? 0)%Z then 42949672960 else 16106127360)%N |}.

(** [torch] built without CUDA. *)
Definition cpu_torch : torch_cuda :=
  {| is_available := Ret false;
     device_count := Ret 0%Z;
     get_device_name := fun _ => Raise (mk_exn RuntimeError "Torch not compiled with CUDA enabled");
     total_memory := fun _ => Raise (mk_exn RuntimeError "Torch not compiled with CUDA enabled") |}.

(** [torch] whose driver query fails. *)
Definition broken_driver : torch_cuda :=
  {| is_available := Ret true;
     device_count := Raise (mk_exn RuntimeError "CUDA driver initialization failed");
     get_device_name := fun _ => Raise (mk_exn RuntimeError "CUDA driver initialization failed");
     total_memory := fun _ => Raise (mk_exn RuntimeError "CUDA driver initialization failed") |}.

(** A POSIX host with Python 3.11 in a venv, 50 GB free, on line. *)
Definition linux_venv : env :=
  {| sys_version_info := {| major := 3; minor := 11; micro := 4 |};
     sys_executable := "/home/u/chatterbox_env/bin/python";
     sys_real_prefix := None;
     sys_base_prefix := Some "/usr";
     sys_prefix := "/home/u/chatterbox_env";
     platform_system := "Linux";
     platform_release := "6.1.0";
     platform_platform := "Linux-6.1.0-x86_64-with-glibc2.36";
     platform_machine := "x86_64";
     platform_processor := "";
     spawn_pip :=
       Ret {| returncode := 0;
              stdout := "pip 23.2.1 from /home/u/chatterbox_env/lib/python3.11/site-packages/pip (python 3.11)" ++ nl |};
     os_getcwd := Ret "/home/u/chatterbox";
     os_statvfs := fun _ => Ret {| f_bavail := 13107200; f_frsize := 4096 |};
     import_ctypes := Ret tt;
     GetDiskFreeSpaceExW := fun _ => Raise (mk_exn AttributeError "module 'ctypes' has no attribute 'windll'");
     import_urllib_request := Ret tt;
     urlopen_pypi := Ret tt;
     import_torch := no_torch |}.

Definition with_pip (e : env) (p : outcome CompletedProcess) : env :=
  {| sys_version_info := sys_version_info e;
     sys_executable := sys_executable e;
     sys_real_prefix := sys_real_prefix e;
     sys_base_prefix := sys_base_prefix e;
     sys_prefix := sys_prefix e;
     platform_system := platform_system e;
     platform_release := platform_release e;
     platform_platform := platform_platform e;
     platform_machine := platform_machine e;
     platform_processor := platform_processor e;
     spawn_pip := p;
     os_getcwd := os_getcwd e;
     os_statvfs := os_statvfs e;
     import_ctypes := import_ctypes e;
     GetDiskFreeSpaceExW := GetDiskFreeSpaceExW e;
     import_urllib_request := import_urllib_request e;
     urlopen_pypi := urlopen_pypi e;
     import_torch := import_torch e |}.

Definition with_prefixes (e : env) (real base : option string) (prefix : string)
  : env :=
  {| sys_version_info := sys_version_info e;
     sys_executable := sys_executable e;
     sys_real_prefix := real;
     sys_base_prefix := base;
     sys_prefix := prefix;
     platform_system := platform_system e;
     platform_release := platform_release e;
     platform_platform := platform_platform e;
     platform_machine := platform_machine e;
     platform_processor := platform_processor e;
     spawn_pip := spawn_pip e;
     os_getcwd := os_getcwd e;
     os_statvfs := os_statvfs e;
     import_ctypes := import_ctypes e;
     GetDiskFreeSpaceExW := GetDiskFreeSpaceExW e;
     import_urllib_request := import_urllib_request e;
     urlopen_pypi := urlopen_pypi e;
     import_torch := import_torch e |}.

Definition with_urlopen (e : env) (u : outcome unit) : env :=
  {| sys_version_info := sys_version_info e;
     sys_executable := sys_executable e;
     sys_real_prefix := sys_real_prefix e;
     sys_base_prefix := sys_base_prefix e;
     sys_prefix := sys_prefix e;
     platform_system := platform_system e;
     platform_release := platform_release e;
     platform_platform := platform_platform e;
     platform_machine := platform_machine e;
     platform_processor := platform_processor e;
     spawn_pip := spawn_pip e;
     os_getcwd := os_getcwd e;
     os_statvfs := os_statvfs e;
     import_ctypes := import_ctypes e;
     GetDiskFreeSpaceExW := GetDiskFreeSpaceExW e;
     import_urllib_request := import_urllib_request e;
     urlopen_pypi := u;
     import_torch := import_torch e |}.

Definition with_statvfs (e : env) (s : string -> outcome statvfs_result) : env :=
  {| sys_version_info := sys_version_info e;
     sys_executable := sys_executable e;
     sys_real_prefix := sys_real_prefix e;
     sys_base_prefix := sys_base_prefix e;
     sys_prefix := sys_prefix e;
     platform_system := platform_system e;
     platform_release := platform_release e;
     platform_platform := platform_platform e;
     platform_machine := platform_machine e;
     platform_processor := platform_processor e;
     spawn_pip := spawn_pip e;
     os_getcwd := os_getcwd e;
     os_statvfs := s;
     import_ctypes := import_ctypes e;
     GetDiskFreeSpaceExW := GetDiskFreeSpaceExW e;
     import_urllib_request := import_urllib_request e;
     urlopen_pypi := urlopen_pypi e;
     import_torch := import_torch e |}.

Definition with_torch (e : env) (t : outcome torch_cuda) : env :=
  {| sys_version_info := sys_version_info e;
     sys_executable := sys_executable e;
     sys_real_prefix := sys_real_prefix e;
     sys_base_prefix := sys_base_prefix e;
     sys_prefix := sys_prefix e;
     platform_system := platform_system e;
     platform_release := platform_release e;
     platform_platform := platform_platform e;
     platform_machine := platform_machine e;
     platform_processor := platform_processor e;
     spawn_pip := spawn_pip e;
     os_getcwd := os_getcwd e;
     os_statvfs := os_statvfs e;
     import_ctypes := import_ctypes e;
     GetDiskFreeSpaceExW := GetDiskFreeSpaceExW e;
     import_urllib_request := import_urllib_request e;
     urlopen_pypi := urlopen_pypi e;
     import_torch := t |}.

(** pip answers with exit status 1. *)
Definition pip_broken : env :=
  with_pip linux_venv (Ret {| returncode := 1; stdout := "" |}).

(** The interpreter's file is gone (its environment was removed while the
    script runs): the child cannot be launched. *)
Definition pip_no_launch : env :=
  with_pip linux_venv
    (Raise (mk_exn FileNotFoundError "[Errno 2] No such file or directory: '/home/u/chatterbox_env/bin/python'")).

(** An environment made by virtualenv before version 20: [real_prefix] is
    set, and [base_prefix] is the environment's own prefix. *)
Definition old_virtualenv : env :=
  with_prefixes linux_venv (Some "/usr") (Some "/home/u/env") "/home/u/env".

(** The system interpreter. *)
Definition system_python : env :=
  with_prefixes linux_venv None (Some "/usr") "/usr".

(** No route to the package index: the request times out. *)
Definition offline : env :=
  with_urlopen linux_venv
    (Raise (mk_exn URLError "<urlopen error timed out>")).

(** The working directory is on a volume that cannot be queried. *)
Definition statvfs_fails : env :=
  with_statvfs linux_venv
    (fun _ => Raise (mk_exn PermissionError "[Errno 13] Permission denied")).

(** 2 GB free. *)
Definition low_disk : env :=
  with_statvfs linux_venv
    (fun _ => Ret {| f_bavail := 524288; f_frsize := 4096 |}).

(** [torch] is installed but one of its shared libraries does not load. *)
Definition torch_lib_missing : env :=
  with_torch linux_venv
    (Raise (mk_exn OSError "libcublas.so.11: cannot open shared object file: No such file or directory")).

(** The same machine as [pip_broken], seen through another interpreter path
    and other [platform] texts. *)
Definition pip_broken_renamed : env :=
  {| sys_version_info := sys_version_info pip_broken;
     sys_executable := "/opt/env/bin/python3";
     sys_real_prefix := sys_real_prefix pip_broken;
     sys_base_prefix := sys_base_prefix pip_broken;
     sys_prefix := sys_prefix pip_broken;
     platform_system := "Darwin";
     platform_release := "23.1.0";
     platform_platform := "macOS-14.1-arm64-arm-64bit";
     platform_machine := "arm64";
     platform_processor := "arm";
     spawn_pip := spawn_pip pip_broken;
     os_getcwd := os_getcwd pip_broken;
     os_statvfs := os_statvfs pip_broken;
     import_ctypes := import_ctypes pip_broken;
     GetDiskFreeSpaceExW := GetDiskFreeSpaceExW pip_broken;
     import_urllib_request := import_urllib_request pip_broken;
     urlopen_pypi := urlopen_pypi pip_broken;
     import_torch := import_torch pip_broken |}.

Definition gpu_host : env := with_torch linux_venv (Ret two_gpus).
Definition cpu_host : env := with_torch linux_venv (Ret cpu_torch).
Definition gpu_driver_fails : env := with_torch linux_venv (Ret broken_driver).

End Hosts.

(** ** Further hosts *)

Module MoreHosts.
Import Py Host Hosts.
Local Open Scope string_scope.

(** 4096 bytes short of 10 GB free. *)
Definition nearly_ten_gb : env :=
  with_statvfs linux_venv
    (fun _ => Ret {| f_bavail := 2621439; f_frsize := 4096 |}).

(** [torch] imports, but its CUDA part fails to import when first queried. *)
Definition cuda_part_missing : torch_cuda :=
  {| is_available := Raise (mk_exn ModuleNotFoundError "No module named 'torch._C'");
     device_count := Raise (mk_exn ModuleNotFoundError "No module named 'torch._C'");
     get_device_name := fun _ => Raise (mk_exn ModuleNotFoundError "No module named 'torch._C'");
     total_memory := fun _ => Raise (mk_exn ModuleNotFoundError "No module named 'torch._C'") |}.

Definition half_installed_torch : env :=
  with_torch linux_venv (Ret cuda_part_missing).

(** The user interrupts the script while the request is pending. *)
Definition interrupted : env :=
  with_urlopen linux_venv (Raise (mk_exn KeyboardInterrupt "")).

End MoreHosts.

(** ** Properties *)

(** *** The computation monad *)

Section MonadFacts.
Import Py.
Context {A B : Type}.

Lemma result_bind (m : M A) (f : A -> M B) :
  result (bind m f) =
  match result m with
  | Ret a => result (f a)
  | Raise x => Raise x
  end.
Proof.
  destruct m as [o [a | x]]; simpl; [ | reflexivity ].
  destruct (f a) as [o' r]; reflexivity.
Qed.

Lemma printed_bind (m : M A) (f : A -> M B) :
  printed (bind m f) =
  printed m ++ match result m with
               | Ret a => printed (f a)
               | Raise _ => []
               end.
Proof.
  destruct m as [o [a | x]]; simpl.
  - destruct (f a) as [o' r]; reflexivity.
  - now rewrite app_nil_r.
Qed.

Lemma result_try_except (body : M A) (C : string) (h : exn -> M A) :
  result (try_except body C h) =
  match result body with
  | Ret a => Ret a
  | Raise x => if isinstance x C then result (h x) else Raise x
  end.
Proof.
  destruct body as [o [a | x]]; simpl; [ reflexivity | ].
  destruct (isinstance x C); [ | reflexivity ].
  destruct (h x); reflexivity.
Qed.

Lemma printed_try_except (body : M A) (C : string) (h : exn -> M A) :
  printed (try_except body C h) =
  printed body ++ match result body with
                  | Ret _ => []
                  | Raise x => if isinstance x C then printed (h x) else []
                  end.
Proof.
  destruct body as [o [a | x]]; simpl.
  - now rewrite app_nil_r.
  - destruct (isinstance x C); simpl.
    + destruct (h x); reflexivity.
    + now rewrite app_nil_r.
Qed.

Lemma M_eta (m : M A) : m = (printed m, result m).
Proof. now destruct m. Qed.

Lemma bind_returns (m : M A) (f : A -> M B) (a : A) :
  result m = Ret a ->
  bind m f = (printed m ++ printed (f a), result (f a)).
Proof.
  destruct m as [o [a' | x]]; simpl; [ intros [= ->] | discriminate ].
  destruct (f a); reflexivity.
Qed.

Lemma bind_raises (m : M A) (f : A -> M B) (x : exn) :
  result m = Raise x -> bind m f = (printed m, Raise x).
Proof.
  destruct m as [o [a' | x']]; simpl; [ discriminate | now intros [= ->] ].
Qed.

End MonadFacts.

Lemma result_print (s : string) : Py.result (Py.print s) = Py.Ret tt.
Proof. reflexivity. Qed.

Lemma result_call {A} (q : Py.outcome A) : Py.result (Py.call q) = q.
Proof. reflexivity. Qed.

Lemma result_ret {A} (a : A) : Py.result (Py.ret a) = Py.Ret a.
Proof. reflexivity. Qed.

Lemma result_print_header (s : string) :
  Py.result (Setup.print_header s) = Py.Ret tt.
Proof. reflexivity. Qed.

(** Every class listed above as derived from [Exception] is caught by
    [except Exception]; the two that are not derived from it are not. *)
Lemma except_Exception_catches (t : string) :
  forallb (fun C => Py.isinstance (Py.mk_exn C t) "Exception")
    [Py.Exception; Py.RuntimeError; Py.AttributeError; Py.ImportError;
     Py.ModuleNotFoundError; Py.OSError; Py.FileNotFoundError;
     Py.PermissionError; Py.TimeoutError; Py.ConnectionError;
     Py.ConnectionRefusedError; Py.URLError; Py.SubprocessError;
     Py.CalledProcessError] = true
  /\ Py.isinstance (Py.mk_exn Py.KeyboardInterrupt t) "Exception" = false
  /\ Py.isinstance (Py.mk_exn Py.SystemExit t) "Exception" = false.
Proof. repeat split. Qed.

(** *** What each check answers *)

Lemma result_print_success (s : string) :
  Py.result (Setup.print_success s) = Py.Ret tt.
Proof. reflexivity. Qed.

Lemma result_print_warning (s : string) :
  Py.result (Setup.print_warning s) = Py.Ret tt.
Proof. reflexivity. Qed.

Lemma result_print_error (s : string) :
  Py.result (Setup.print_error s) = Py.Ret tt.
Proof. reflexivity. Qed.

Ltac results :=
  repeat (rewrite ?result_bind, ?result_try_except, ?result_print_header,
            ?result_print_success, ?result_print_warning, ?result_print_error,
            ?result_print, ?result_call, ?result_ret; cbn beta iota).

Section CheckResults.
Import Py Host Setup.
Variable e : env.

Lemma result_check_python_version :
  result (check_python_version e) =
  Ret ((major (sys_version_info e) =? 3)%Z
       && (minor (sys_version_info e) >=? 10)%Z).
Proof.
  unfold check_python_version.
  destruct ((major (sys_version_info e) =? 3)%Z
            && (minor (sys_version_info e) >=? 10)%Z); reflexivity.
Qed.

Lemma result_check_system_info : result (check_system_info e) = Ret true.
Proof. reflexivity. Qed.

Lemma result_subprocess_run_check :
  result (subprocess_run_check e) =
  match spawn_pip e with
  | Ret p =>
      if (returncode p =? 0)%Z then Ret p
      else Raise (mk_exn CalledProcessError
                    ("Command '['" ++ sys_executable e
                     ++ "', '-m', 'pip', '--version']' returned non-zero exit status "
                     ++ str_int (returncode p) ++ "."))
  | Raise x => Raise x
  end.
Proof.
  unfold subprocess_run_check. results.
  destruct (spawn_pip e) as [p | x]; [ | reflexivity ].
  destruct (returncode p =? 0)%Z; reflexivity.
Qed.

Lemma result_check_pip :
  result (check_pip e) =
  match spawn_pip e with
  | Ret p => Ret (returncode p =? 0)%Z
  | Raise x => if isinstance x "CalledProcessError" then Ret false else Raise x
  end.
Proof.
  unfold check_pip. results. rewrite result_subprocess_run_check.
  destruct (spawn_pip e) as [p | x].
  - destruct (returncode p =? 0)%Z; reflexivity.
  - destruct (isinstance x "CalledProcessError"); reflexivity.
Qed.

Lemma result_check_venv : result (check_venv e) = Ret (in_venv e).
Proof.
  unfold check_venv. destruct (in_venv e); [ reflexivity | ].
  destruct (platform_system e =? "Windows")%string; reflexivity.
Qed.

Lemma result_check_disk_space :
  result (check_disk_space e) =
  match result (free_bytes_query e) with
  | Ret _ => Ret true
  | Raise x => if isinstance x "Exception" then Ret true else Raise x
  end.
Proof.
  unfold check_disk_space. results.
  destruct (result (free_bytes_query e)) as [n | x].
  - destruct (gb_ge_10 n); reflexivity.
  - destruct (isinstance x "Exception"); reflexivity.
Qed.

Lemma result_check_internet :
  result (check_internet e) =
  match import_urllib_request e, urlopen_pypi e with
  | Ret _, Ret _ => Ret true
  | Ret _, Raise x | Raise x, _ =>
      if isinstance x "Exception" then Ret false else Raise x
  end.
Proof.
  unfold check_internet. results.
  destruct (import_urllib_request e) as [[] | x];
    [ destruct (urlopen_pypi e) as [[] | x] | ];
    try reflexivity; destruct (isinstance x "Exception"); reflexivity.
Qed.

End CheckResults.

Section Loops.
Import Py Host Setup.

Lemma In_range (n i : Z) : In i (range n) <-> (0 <= i < n)%Z.
Proof.
  unfold range. rewrite in_map_iff. split.
  - intros (k & <- & Hk). apply in_seq in Hk. lia.
  - intros Hi. exists (Z.to_nat i). split; [ lia | ].
    apply in_seq. lia.
Qed.

Lemma result_for_each_returns {A} (xs : list A) (body : A -> M unit) :
  (forall x, In x xs -> result (body x) = Ret tt) ->
  result (for_each xs body) = Ret tt.
Proof.
  induction xs as [ | x xs IH ]; intros Hbody; [ reflexivity | ].
  cbn [for_each]. rewrite result_bind, (Hbody x (or_introl eq_refl)).
  apply IH. intros y Hy. apply Hbody. now right.
Qed.

Lemma printed_for_each_print {A} (xs : list A) (f : A -> string) :
  for_each xs (fun x => print (f x)) = (map f xs, Ret tt).
Proof.
  induction xs as [ | x xs IH ]; [ reflexivity | ].
  cbn [for_each map]. rewrite IH. reflexivity.
Qed.

End Loops.

(** *** The runtime-version check *)

Section Checks.
Import Py Host Setup Hosts.

(** C8. For every version triple of the interpreter, [check_python_version]
    returns, and what it returns is [True] exactly when the major version
    is 3 and the minor version is at least 10; it is [False] exactly when
    the major version is not 3 or the minor version is below 10. *)
Theorem check_python_version_true_iff (e : env) :
  exists b : bool,
    result (check_python_version e) = Ret b
    /\ (b = true <->
        major (sys_version_info e) = 3%Z /\ (10 <= minor (sys_version_info e))%Z)
    /\ (b = false <->
        major (sys_version_info e) <> 3%Z \/ (minor (sys_version_info e) < 10)%Z).
Proof.
  eexists. split; [ apply result_check_python_version | ].
  rewrite andb_true_iff, andb_false_iff, Z.eqb_eq, Z.eqb_neq, Z.geb_le.
  split; [ tauto | ].
  destruct (Z.geb_spec (minor (sys_version_info e)) 10) as [H | H].
  - split; [ intros [? | ?]; [ now left | discriminate ] | ].
    intros [? | ?]; [ now left | lia ].
  - split; [ intros _; right; lia | now right ].
Qed.

(** *** The package-manager check *)

(** C3 (the code departs from the claim).  When the child is launched,
    [check_pip] returns [True] exactly when its exit status is 0.  When it
    cannot be launched, [subprocess.run] raises something else than
    [CalledProcessError], the only class the handler names: on the host
    below [FileNotFoundError] leaves [check_pip] after the header is
    printed and no boolean is returned, where [check_internet] and
    [check_disk_space] catch [Exception]. *)
Theorem check_pip_launch_failure_escapes :
  (forall e : env,
     result (check_pip e) =
     match spawn_pip e with
     | Ret p => Ret (returncode p =? 0)%Z
     | Raise x =>
         if isinstance x "CalledProcessError" then Ret false else Raise x
     end)
  /\ spawn_pip pip_no_launch =
     Raise (mk_exn FileNotFoundError
              "[Errno 2] No such file or directory: '/home/u/chatterbox_env/bin/python'")
  /\ check_pip pip_no_launch =
     (printed (print_header "Checking pip (Package Manager)"),
      Raise (mk_exn FileNotFoundError
               "[Errno 2] No such file or directory: '/home/u/chatterbox_env/bin/python'")).
Proof.
  split; [ exact result_check_pip | ].
  split; reflexivity.
Qed.

(** C2 (the code departs from the claim).  [check_python_version],
    [check_system_info] and [check_venv] return on every host.  But an
    exception leaves [check_pip] when the child cannot be launched, and
    leaves [check_gpu] when [torch] is present and one of its queries
    raises, or when importing it raises something else than [ImportError]:
    in each case the check returns no boolean, and [main], which has no
    handler, ends there. *)
Theorem checks_let_exceptions_escape :
  (forall e : env,
     returns (check_python_version e) = true
     /\ returns (check_system_info e) = true
     /\ returns (check_venv e) = true)
  /\ returns (check_pip pip_no_launch) = false
  /\ result (check_gpu gpu_driver_fails)
     = Raise (mk_exn RuntimeError "CUDA driver initialization failed")
  /\ result (check_gpu torch_lib_missing)
     = Raise (mk_exn OSError
                "libcublas.so.11: cannot open shared object file: No such file or directory")
  /\ snd (dunder_main gpu_driver_fails)
     = Uncaught (mk_exn RuntimeError "CUDA driver initialization failed").
Proof.
  split; [ | repeat split ].
  intros e. unfold returns.
  now rewrite result_check_python_version, result_check_system_info,
    result_check_venv.
Qed.

(** *** The virtual-environment check *)

(** C4, as the claim states it, fails: in an environment made by an old
    virtualenv the legacy marker [real_prefix] is present, the two compared
    prefixes are equal, and [check_venv] returns [True]. *)
Lemma check_venv_legacy_marker_cex :
  sys_base_prefix old_virtualenv = Some (sys_prefix old_virtualenv)
  /\ result (check_venv old_virtualenv) = Ret true
  /\ ~ (forall (e : env) (base : string),
          sys_base_prefix e = Some base ->
          (result (check_venv e) = Ret true <-> base <> sys_prefix e)).
Proof.
  split; [ reflexivity | ]. split; [ reflexivity | ].
  intros H.
  apply (proj1 (H old_virtualenv "/home/u/env"%string eq_refl)); reflexivity.
Qed.

(** C4, amended.  [check_venv] returns [True] exactly when the legacy
    marker [real_prefix] is present, or [base_prefix] is present and
    differs from [prefix]; otherwise it returns [False].  So where the
    legacy marker is absent and [base_prefix] is present, it returns
    [True] exactly when the two prefixes differ. *)
Theorem check_venv_true_iff (e : env) :
  exists b : bool,
    result (check_venv e) = Ret b
    /\ (b = true <->
        sys_real_prefix e <> None
        \/ exists base, sys_base_prefix e = Some base /\ base <> sys_prefix e)
    /\ (forall base,
          sys_real_prefix e = None -> sys_base_prefix e = Some base ->
          (b = true <-> base <> sys_prefix e)).
Proof.
  exists (in_venv e). split; [ apply result_check_venv | ].
  unfold in_venv.
  destruct (sys_real_prefix e) as [real | ].
  - split; [ | discriminate ]. split; [ left; discriminate | reflexivity ].
  - destruct (sys_base_prefix e) as [base | ].
    + split.
      * rewrite negb_true_iff, String.eqb_neq.
        split; [ intros H; right; now exists base | ].
        intros [H | (b' & [= <-] & H)]; [ now contradiction H | exact H ].
      * intros b' _ [= <-]. now rewrite negb_true_iff, String.eqb_neq.
    + split; [ | discriminate ].
      split; [ discriminate | ].
      intros [H | (b' & H & _)]; [ now contradiction H | discriminate ].
Qed.

Lemma check_venv_true_iff_witness :
  sys_real_prefix system_python = None
  /\ sys_base_prefix system_python = Some "/usr"%string
  /\ exists b : bool,
       result (check_venv system_python) = Ret b
       /\ (b = true <-> "/usr"%string <> sys_prefix system_python).
Proof.
  split; [ reflexivity | ]. split; [ reflexivity | ].
  destruct (check_venv_true_iff system_python) as (b & Hb & _ & H).
  exists b. split; [ exact Hb | ].
  apply (H "/usr"%string); reflexivity.
Defined.

End Checks.

(** *** The driver *)

Section Driver.
Import Py Host Setup.

Lemma result_check_gpu_not_false (e : env) : result (check_gpu e) <> Ret false.
Proof.
  unfold check_gpu. results.
  destruct (import_torch e) as [t | x].
  - destruct (is_available t) as [[ | ] | x]; results.
    + destruct (device_count t) as [n | x]; results.
      * destruct (result (for_each _ _)) as [[] | x]; [ discriminate | ].
        destruct (isinstance x "ImportError"); discriminate.
      * destruct (isinstance x "ImportError"); discriminate.
    + discriminate.
    + destruct (isinstance x "ImportError"); discriminate.
  - destruct (isinstance x "ImportError"); discriminate.
Qed.

Lemma count_passed_cons (name : string) (r : bool) (checks : list (string * bool)) :
  count_passed ((name, r) :: checks) =
  (if r then 1 else 0) + count_passed checks.
Proof. destruct r; reflexivity. Qed.

Lemma count_passed_le (checks : list (string * bool)) :
  count_passed checks <= length checks.
Proof.
  induction checks as [ | [name r] checks IH ]; [ apply Nat.le_refl | ].
  rewrite count_passed_cons. cbn [length]. destruct r; lia.
Qed.

Lemma all_passed_iff (checks : list (string * bool)) :
  (count_passed checks =? length checks)%nat = forallb snd checks.
Proof.
  induction checks as [ | [name r] checks IH ]; [ reflexivity | ].
  pose proof (count_passed_le checks) as Hle.
  rewrite count_passed_cons. cbn [length forallb snd].
  destruct r; cbn [andb].
  - rewrite <- IH. reflexivity.
  - apply Nat.eqb_neq. lia.
Qed.

(** What [main_summary] prints, and what it returns. *)
Lemma main_summary_eq (checks : list (string * bool)) :
  main_summary checks =
  (printed (print_header "SETUP CHECK SUMMARY")
   ++ map summary_row checks
   ++ (nl ++ str_nat (count_passed checks) ++ "/"
       ++ str_nat (length checks) ++ " checks passed")%string
   :: printed (if forallb snd checks then success_closing else warning_closing),
   Ret (if forallb snd checks then 0 else 1)%Z).
Proof.
  unfold main_summary.
  rewrite printed_for_each_print, all_passed_iff.
  destruct (forallb snd checks);
    cbn - [String.append str_nat count_passed length summary_row];
    rewrite ?app_nil_r; reflexivity.
Qed.

(** When the seven checks return, [main_checks] prints what they print, one
    after the other, and returns their names and booleans in that order. *)
Lemma main_checks_returns (e : env) (b1 b2 b3 b4 b5 b6 b7 : bool) :
  result (check_python_version e) = Ret b1 ->
  result (check_system_info e) = Ret b2 ->
  result (check_pip e) = Ret b3 ->
  result (check_venv e) = Ret b4 ->
  result (check_disk_space e) = Ret b5 ->
  result (check_internet e) = Ret b6 ->
  result (check_gpu e) = Ret b7 ->
  main_checks e =
  (printed (check_python_version e) ++ printed (check_system_info e)
   ++ printed (check_pip e) ++ printed (check_venv e)
   ++ printed (check_disk_space e) ++ printed (check_internet e)
   ++ printed (check_gpu e),
   Ret [("Python Version", b1); ("System Info", b2); ("pip", b3);
        ("Virtual Environment", b4); ("Disk Space", b5); ("Internet", b6);
        ("GPU (Optional)", b7)]%string).
Proof.
  intros H1 H2 H3 H4 H5 H6 H7. unfold main_checks.
  rewrite (bind_returns _ _ _ H1); cbn beta.
  rewrite (bind_returns _ _ _ H2); cbn beta.
  rewrite (bind_returns _ _ _ H3); cbn beta.
  rewrite (bind_returns _ _ _ H4); cbn beta.
  rewrite (bind_returns _ _ _ H5); cbn beta.
  rewrite (bind_returns _ _ _ H6); cbn beta.
  rewrite (bind_returns _ _ _ H7); cbn beta.
  cbn [printed result ret fst snd app]. now rewrite app_nil_r.
Qed.

Lemma main_eq (e : env) :
  main e =
  ([nl ++ str_mul "=" 60; "  CHATTERBOX TTS - ENVIRONMENT SETUP CHECKER";
    "  Step 1 of 5: Verify Your System"; str_mul "=" 60]%string
   ++ printed (main_checks e)
   ++ match result (main_checks e) with
      | Ret checks => printed (main_summary checks)
      | Raise _ => []
      end,
   match result (main_checks e) with
   | Ret checks => result (main_summary checks)
   | Raise x => Raise x
   end).
Proof.
  unfold main.
  destruct (result (main_checks e)) as [checks | x] eqn:Hc.
  - rewrite (bind_returns (main_checks e) _ _ Hc).
    destruct (main_summary checks); reflexivity.
  - rewrite (bind_raises (main_checks e) _ _ Hc).
    cbn. now rewrite app_nil_r.
Qed.

Lemma dunder_main_status (e : env) :
  snd (dunder_main e) =
  match result (main_checks e) with
  | Ret checks => Exited (if forallb snd checks then 0 else 1)%Z
  | Raise x => Uncaught x
  end.
Proof.
  unfold dunder_main. rewrite main_eq.
  destruct (result (main_checks e)) as [checks | x]; [ | reflexivity ].
  now rewrite main_summary_eq.
Qed.

(** The text of a summary row. *)
Lemma summary_row_eq (name : string) (r : bool) :
  summary_row (name, r) =
  ((if r then "✓ PASS  " else "✗ FAIL  ") ++ " - " ++ name)%string.
Proof. destruct r; reflexivity. Qed.

End Driver.

(** *** The network, disk-space and GPU checks *)

Section AdvisoryChecks.
Import Py Host Setup Hosts.

(** The text [check_internet] prints when it fails. *)
Lemma check_internet_failure_text :
  printed (print_header "Checking Internet Connection")
  ++ ["✗ No internet connection detected";
      "   Internet is required to download models and dependencies"]%string
  = printed (check_internet offline).
Proof. reflexivity. Qed.

(** C5. [check_internet] returns [True] exactly when the import and the
    request to the package index complete without raising.  When either
    raises an error (an instance of [Exception]: a timeout, a failed name
    lookup, a refused connection, ...), it returns [False] after printing
    one failure text that does not depend on the error; the run goes on,
    and where the other checks return, the process exits with status 1. *)
Theorem check_internet_true_iff_no_raise (e : env) :
  (result (check_internet e) = Ret true <->
   import_urllib_request e = Ret tt /\ urlopen_pypi e = Ret tt)
  /\ (forall x : exn,
        isinstance x "Exception" = true ->
        import_urllib_request e = Raise x
        \/ (import_urllib_request e = Ret tt /\ urlopen_pypi e = Raise x) ->
        check_internet e =
        (printed (print_header "Checking Internet Connection")
         ++ ["✗ No internet connection detected";
             "   Internet is required to download models and dependencies"]%string,
         Ret false)
        /\ (returns (check_pip e) = true ->
            returns (check_disk_space e) = true ->
            returns (check_gpu e) = true ->
            snd (dunder_main e) = Exited 1)).
Proof.
  split.
  - rewrite result_check_internet.
    destruct (import_urllib_request e) as [[] | x];
      [ destruct (urlopen_pypi e) as [[] | x] | ].
    + tauto.
    + split; [ | intros [_ [=]] ].
      destruct (isinstance x "Exception"); discriminate.
    + split; [ | intros [[=] _] ].
      destruct (isinstance x "Exception"); discriminate.
  - intros x Hx Hraise.
    assert (Hnet : check_internet e =
                   (printed (print_header "Checking Internet Connection")
                    ++ ["✗ No internet connection detected";
                        "   Internet is required to download models and dependencies"]%string,
                    Ret false)).
    { unfold check_internet.
      destruct Hraise as [-> | [-> ->]]; cbn - [isinstance];
        rewrite Hx; reflexivity. }
    split; [ exact Hnet | ].
    unfold returns. intros Hpip Hdisk Hgpu.
    destruct (result (check_pip e)) as [b3 | ] eqn:H3; [ | discriminate ].
    destruct (result (check_disk_space e)) as [b5 | ] eqn:H5; [ | discriminate ].
    destruct (result (check_gpu e)) as [b7 | ] eqn:H7; [ | discriminate ].
    rewrite dunder_main_status.
    rewrite (main_checks_returns e _ _ b3 _ b5 false b7
               (result_check_python_version e) (result_check_system_info e)
               H3 (result_check_venv e) H5 (f_equal snd Hnet) H7).
    cbn [result snd forallb]. now rewrite !andb_false_r.
Qed.

Lemma check_internet_true_iff_no_raise_witness :
  isinstance (mk_exn URLError "<urlopen error timed out>") "Exception" = true
  /\ urlopen_pypi offline = Raise (mk_exn URLError "<urlopen error timed out>")
  /\ result (check_internet offline) = Ret false
  /\ snd (dunder_main offline) = Exited 1.
Proof.
  split; [ reflexivity | ]. split; [ reflexivity | ].
  destruct (proj2 (check_internet_true_iff_no_raise offline)
              (mk_exn URLError "<urlopen error timed out>") eq_refl
              (or_intror (conj eq_refl eq_refl))) as [Hnet Hrun].
  split; [ now rewrite Hnet | ].
  apply Hrun; reflexivity.
Defined.

(** C6. [check_disk_space] returns [True] for every measured amount of free
    space, at or above the 10 GB threshold ("sufficient") and below it
    (the warning), and also when the measurement raises an error (an
    instance of [Exception]), where it warns that the space could not be
    checked. *)
Theorem check_disk_space_fail_open (e : env) :
  (forall free : N,
     result (free_bytes_query e) = Ret free ->
     check_disk_space e =
     (printed (print_header "Checking Disk Space")
      ++ printed (free_bytes_query e)
      ++ ("Available disk space: " ++ fmt_gb_2f free ++ " GB")%string
      :: (if (10 * 2 ^ 30 <=? free)%N
          then ["✓ Sufficient disk space available"%string]
          else [("⚠ Low disk space: " ++ fmt_gb_2f free ++ " GB")%string;
                "   Recommended: At least 10 GB free for models and dependencies"%string]),
      Ret true))
  /\ (forall x : exn,
        result (free_bytes_query e) = Raise x ->
        isinstance x "Exception" = true ->
        check_disk_space e =
        (printed (print_header "Checking Disk Space")
         ++ printed (free_bytes_query e)
         ++ [("⚠ Could not check disk space: " ++ exn_text x)%string],
         Ret true)).
Proof.
  split.
  - intros free Hfree. unfold check_disk_space.
    rewrite (M_eta (free_bytes_query e)), Hfree.
    unfold gb_ge_10. cbn - [fmt_gb_2f N.leb N.mul N.pow String.append].
    destruct (10 * 2 ^ 30 <=? free)%N; cbn - [fmt_gb_2f String.append];
      rewrite ?app_nil_r; reflexivity.
  - intros x Hx Hcaught. unfold check_disk_space.
    rewrite (M_eta (free_bytes_query e)), Hx.
    cbn - [isinstance String.append]. rewrite Hcaught.
    cbn - [String.append]. reflexivity.
Qed.

Lemma check_disk_space_fail_open_witness :
  result (check_disk_space linux_venv) = Ret true
  /\ result (check_disk_space low_disk) = Ret true
  /\ result (check_disk_space statvfs_fails) = Ret true.
Proof.
  split; [ | split ].
  - now rewrite (proj1 (check_disk_space_fail_open linux_venv)
                   53687091200%N eq_refl).
  - now rewrite (proj1 (check_disk_space_fail_open low_disk)
                   2147483648%N eq_refl).
  - now rewrite (proj2 (check_disk_space_fail_open statvfs_fails)
                   (mk_exn PermissionError "[Errno 13] Permission denied")
                   eq_refl eq_refl).
Defined.

(** C7. [check_gpu] returns [True] when [torch] is not installed (the
    import raises [ImportError]), when it is installed and reports devices
    (whatever their number, each device answering the two queries), and
    when it is installed and reports no device; and on no host does it
    return [False], so its row of the summary never fails. *)
Theorem check_gpu_always_true (e : env) :
  (forall x : exn,
     import_torch e = Raise x -> isinstance x "ImportError" = true ->
     result (check_gpu e) = Ret true)
  /\ (forall (t : torch_cuda) (n : Z),
        import_torch e = Ret t ->
        is_available t = Ret true ->
        device_count t = Ret n ->
        (forall i : Z, (0 <= i < n)%Z ->
           exists name mem,
             get_device_name t i = Ret name /\ total_memory t i = Ret mem) ->
        result (check_gpu e) = Ret true)
  /\ (forall t : torch_cuda,
        import_torch e = Ret t -> is_available t = Ret false ->
        result (check_gpu e) = Ret true)
  /\ result (check_gpu e) <> Ret false.
Proof.
  split; [ | split; [ | split ] ].
  - intros x Himport Hx. unfold check_gpu. results.
    rewrite Himport, Hx. reflexivity.
  - intros t n Himport Havail Hcount Hdev. unfold check_gpu. results.
    rewrite Himport. results. rewrite Havail. results. rewrite Hcount.
    results. rewrite result_for_each_returns; [ reflexivity | ].
    intros i Hi. apply In_range in Hi.
    destruct (Hdev i Hi) as (name & mem & Hname & Hmem).
    results. rewrite Hname. results. now rewrite Hmem.
  - intros t Himport Havail. unfold check_gpu. results.
    rewrite Himport. results. now rewrite Havail.
  - apply result_check_gpu_not_false.
Qed.

Lemma check_gpu_always_true_witness :
  result (check_gpu linux_venv) = Ret true
  /\ result (check_gpu gpu_host) = Ret true
  /\ result (check_gpu cpu_host) = Ret true.
Proof.
  split; [ | split ].
  - apply (proj1 (check_gpu_always_true linux_venv)
             (mk_exn ModuleNotFoundError "No module named 'torch'"));
      reflexivity.
  - apply (proj1 (proj2 (check_gpu_always_true gpu_host)) two_gpus 2%Z);
      try reflexivity.
    intros i _. do 2 eexists. split; reflexivity.
  - apply (proj1 (proj2 (proj2 (check_gpu_always_true cpu_host))) cpu_torch);
      reflexivity.
Defined.

End AdvisoryChecks.

(** *** The driver's claims *)

Section DriverClaims.
Import Py Host Setup Hosts.


(** C10 (the code departs from the claim).  On the host where the pip
    child cannot be launched, the exception that leaves [check_pip] ends
    [main] at the third check: twenty texts are printed, the last being the
    header of the pip check; the four later checks are not called, no pair
    is recorded, no summary is printed, and the process ends with the
    exception.  On a host where pip merely fails, all seven are recorded. *)
Theorem main_exits_early_when_check_pip_raises :
  main_checks pip_no_launch =
  (printed (check_python_version pip_no_launch)
   ++ printed (check_system_info pip_no_launch)
   ++ printed (print_header "Checking pip (Package Manager)"),
   Raise (mk_exn FileNotFoundError
            "[Errno 2] No such file or directory: '/home/u/chatterbox_env/bin/python'"))
  /\ length (printed (main pip_no_launch)) = 20
  /\ ~ In "  Checking Virtual Environment"%string (printed (main pip_no_launch))
  /\ ~ In "  Checking Disk Space"%string (printed (main pip_no_launch))
  /\ ~ In "  Checking Internet Connection"%string (printed (main pip_no_launch))
  /\ ~ In "  Checking GPU Availability (Optional)"%string
       (printed (main pip_no_launch))
  /\ ~ In "  SETUP CHECK SUMMARY"%string (printed (main pip_no_launch))
  /\ snd (dunder_main pip_no_launch) =
     Uncaught (mk_exn FileNotFoundError
                 "[Errno 2] No such file or directory: '/home/u/chatterbox_env/bin/python'")
  /\ result (main_checks pip_broken) =
     Ret [("Python Version", true); ("System Info", true); ("pip", false);
          ("Virtual Environment", true); ("Disk Space", true);
          ("Internet", true); ("GPU (Optional)", true)]%string.
Proof.
  split; [ reflexivity | ]. split; [ reflexivity | ].
  repeat (split;
          [ cbv; intros H; repeat destruct H as [H | H];
            try discriminate H; exact H | ]).
  split; reflexivity.
Qed.

(** X13. On a host where each of the seven checks returns, whatever the
    booleans, [main] calls all seven in the order of the source (what it
    prints is what they print, one after the other) and records their
    seven (name, outcome) pairs in that order; the summary then prints one
    row per pair in the same order, "✓ PASS" before the name of a check
    that returned [True] and "✗ FAIL" before one that returned [False],
    followed by the line "<passed>/7 checks passed". *)
Theorem main_runs_all_seven_in_order
  (e : env) (b1 b2 b3 b4 b5 b6 b7 : bool)
  (H1 : result (check_python_version e) = Ret b1)
  (H2 : result (check_system_info e) = Ret b2)
  (H3 : result (check_pip e) = Ret b3)
  (H4 : result (check_venv e) = Ret b4)
  (H5 : result (check_disk_space e) = Ret b5)
  (H6 : result (check_internet e) = Ret b6)
  (H7 : result (check_gpu e) = Ret b7) :
  let checks :=
    [("Python Version", b1); ("System Info", b2); ("pip", b3);
     ("Virtual Environment", b4); ("Disk Space", b5); ("Internet", b6);
     ("GPU (Optional)", b7)]%string in
  let row := fun (b : bool) (name : string) =>
    ((if b then "✓ PASS  " else "✗ FAIL  ") ++ " - " ++ name)%string in
  main_checks e =
  (printed (check_python_version e) ++ printed (check_system_info e)
   ++ printed (check_pip e) ++ printed (check_venv e)
   ++ printed (check_disk_space e) ++ printed (check_internet e)
   ++ printed (check_gpu e),
   Ret checks)
  /\ length checks = 7
  /\ printed (main_summary checks) =
     [nl ++ str_mul "=" 60; "  SETUP CHECK SUMMARY"; str_mul "=" 60 ++ nl]%string
     ++ [row b1 "Python Version"; row b2 "System Info"; row b3 "pip";
         row b4 "Virtual Environment"; row b5 "Disk Space";
         row b6 "Internet"; row b7 "GPU (Optional)"]%string
     ++ (nl ++ str_nat (length (filter (fun b : bool => b)
                                  [b1; b2; b3; b4; b5; b6; b7]))
         ++ "/7 checks passed")%string
     :: printed (if b1 && b2 && b3 && b4 && b5 && b6 && b7
                 then success_closing else warning_closing)
  /\ printed (main e) =
     [nl ++ str_mul "=" 60; "  CHATTERBOX TTS - ENVIRONMENT SETUP CHECKER";
      "  Step 1 of 5: Verify Your System"; str_mul "=" 60]%string
     ++ printed (main_checks e) ++ printed (main_summary checks).
Proof.
  intros checks row.
  pose proof (main_checks_returns e _ _ _ _ _ _ _ H1 H2 H3 H4 H5 H6 H7) as Hc.
  fold checks in Hc.
  split; [ exact Hc | ]. split; [ reflexivity | ].
  split.
  - rewrite main_summary_eq. cbn [printed fst]. unfold checks.
    cbn [map]. rewrite !summary_row_eq. fold (row b1 "Python Version"%string).
    assert (Hcount : count_passed checks
                     = length (filter (fun b : bool => b)
                                 [b1; b2; b3; b4; b5; b6; b7]))
      by (unfold checks; destruct b1, b2, b3, b4, b5, b6, b7; reflexivity).
    assert (Hall : forallb snd checks = b1 && b2 && b3 && b4 && b5 && b6 && b7)
      by (unfold checks; destruct b1, b2, b3, b4, b5, b6, b7; reflexivity).
    fold checks. rewrite Hcount, Hall. reflexivity.
  - rewrite main_eq. cbn [printed fst]. now rewrite Hc.
Qed.

Lemma main_runs_all_seven_in_order_witness :
  result (main_checks pip_broken) =
  Ret [("Python Version", true); ("System Info", true); ("pip", false);
       ("Virtual Environment", true); ("Disk Space", true); ("Internet", true);
       ("GPU (Optional)", true)]%string
  /\ In "✗ FAIL   - pip"%string (printed (main pip_broken))
  /\ In (nl ++ "6/7 checks passed")%string (printed (main pip_broken)).
Proof.
  destruct (main_runs_all_seven_in_order pip_broken
              true true false true true true true
              eq_refl eq_refl eq_refl eq_refl eq_refl eq_refl eq_refl)
    as (Hc & _ & Hs & Hm).
  split; [ now rewrite Hc | ].
  rewrite Hm, Hs.
  split; apply in_or_app; right; apply in_or_app; right;
    apply in_or_app; right; cbv; tauto.
Defined.

(** C9. Two runs on hosts that answer alike (same version and prefixes,
    same pip child, same free-space measurement, same network outcome, same
    state of [torch]) end alike: each of the seven checks returns the same
    boolean or raises the same exception, the same pairs are collected, and
    the process ends with the same exit status. *)
Theorem main_deterministic (e1 e2 : env) (H : same_queried_state e1 e2) :
  result (check_python_version e1) = result (check_python_version e2)
  /\ result (check_system_info e1) = result (check_system_info e2)
  /\ result (check_pip e1) = result (check_pip e2)
  /\ result (check_venv e1) = result (check_venv e2)
  /\ result (check_disk_space e1) = result (check_disk_space e2)
  /\ result (check_internet e1) = result (check_internet e2)
  /\ result (check_gpu e1) = result (check_gpu e2)
  /\ result (main_checks e1) = result (main_checks e2)
  /\ snd (dunder_main e1) = snd (dunder_main e2).
Proof.
  destruct H as (Hv & Hreal & Hbase & Hprefix & Hpip & Hdisk & Himp & Hurl & Ht).
  assert (E1 : result (check_python_version e1) = result (check_python_version e2))
    by now rewrite !result_check_python_version, Hv.
  assert (E2 : result (check_system_info e1) = result (check_system_info e2))
    by reflexivity.
  assert (E3 : result (check_pip e1) = result (check_pip e2))
    by now rewrite !result_check_pip, Hpip.
  assert (E4 : result (check_venv e1) = result (check_venv e2))
    by (rewrite !result_check_venv; unfold in_venv;
        now rewrite Hreal, Hbase, Hprefix).
  assert (E5 : result (check_disk_space e1) = result (check_disk_space e2))
    by now rewrite !result_check_disk_space, Hdisk.
  assert (E6 : result (check_internet e1) = result (check_internet e2))
    by now rewrite !result_check_internet, Himp, Hurl.
  assert (E7 : result (check_gpu e1) = result (check_gpu e2))
    by (unfold check_gpu; results; now rewrite Ht).
  assert (Em : result (main_checks e1) = result (main_checks e2)).
  { unfold main_checks.
    rewrite !(result_bind (check_python_version _)), E1.
    destruct (result (check_python_version e2)); [ cbn beta | reflexivity ].
    rewrite !(result_bind (check_system_info _)), E2.
    destruct (result (check_system_info e2)); [ cbn beta | reflexivity ].
    rewrite !(result_bind (check_pip _)), E3.
    destruct (result (check_pip e2)); [ cbn beta | reflexivity ].
    rewrite !(result_bind (check_venv _)), E4.
    destruct (result (check_venv e2)); [ cbn beta | reflexivity ].
    rewrite !(result_bind (check_disk_space _)), E5.
    destruct (result (check_disk_space e2)); [ cbn beta | reflexivity ].
    rewrite !(result_bind (check_internet _)), E6.
    destruct (result (check_internet e2)); [ cbn beta | reflexivity ].
    rewrite !(result_bind (check_gpu _)), E7.
    reflexivity. }
  repeat (split; [ assumption | ]).
  now rewrite !dunder_main_status, Em.
Qed.

Lemma main_deterministic_witness :
  main pip_broken <> main pip_broken_renamed
  /\ result (main_checks pip_broken) = result (main_checks pip_broken_renamed)
  /\ snd (dunder_main pip_broken) = snd (dunder_main pip_broken_renamed).
Proof.
  split; [ discriminate | ].
  assert (H : same_queried_state pip_broken pip_broken_renamed)
    by (repeat split).
  split; apply (main_deterministic pip_broken pip_broken_renamed H).
Defined.

End DriverClaims.

(** *** Further properties of the driver *)

Section DriverMore.
Import Py Host Setup Hosts MoreHosts.

(** What [main_checks] returns, from what the four checks that can raise
    return. *)
Lemma result_main_checks (e : env) :
  result (main_checks e) =
  match result (check_pip e) with
  | Raise x => Raise x
  | Ret b3 =>
      match result (check_disk_space e) with
      | Raise x => Raise x
      | Ret b5 =>
          match result (check_internet e) with
          | Raise x => Raise x
          | Ret b6 =>
              match result (check_gpu e) with
              | Raise x => Raise x
              | Ret b7 =>
                  Ret [("Python Version",
                        (major (sys_version_info e) =? 3)%Z
                        && (minor (sys_version_info e) >=? 10)%Z);
                       ("System Info", true); ("pip", b3);
                       ("Virtual Environment", in_venv e);
                       ("Disk Space", b5); ("Internet", b6);
                       ("GPU (Optional)", b7)]%string
              end
          end
      end
  end.
Proof.
  unfold main_checks.
  rewrite result_bind, result_check_python_version. cbn beta iota.
  rewrite result_bind, result_check_system_info. cbn beta iota.
  rewrite result_bind.
  destruct (result (check_pip e)) as [b3 | x]; [ cbn beta iota | reflexivity ].
  rewrite result_bind, result_check_venv. cbn beta iota.
  rewrite result_bind.
  destruct (result (check_disk_space e)) as [b5 | x]; [ cbn beta iota | reflexivity ].
  rewrite result_bind.
  destruct (result (check_internet e)) as [b6 | x]; [ cbn beta iota | reflexivity ].
  rewrite result_bind.
  destruct (result (check_gpu e)) as [b7 | x]; reflexivity.
Qed.

Lemma check_disk_space_returns_true (e : env) (b : bool) :
  result (check_disk_space e) = Ret b -> b = true.
Proof.
  rewrite result_check_disk_space.
  destruct (result (free_bytes_query e)) as [n | x]; [ now intros [= <-] | ].
  destruct (isinstance x "Exception"); [ now intros [= <-] | discriminate ].
Qed.

Lemma check_gpu_returns_true (e : env) (b : bool) :
  result (check_gpu e) = Ret b -> b = true.
Proof.
  intros H. destruct b; [ reflexivity | ].
  now apply result_check_gpu_not_false in H.
Qed.

Lemma check_pip_true_iff (e : env) :
  result (check_pip e) = Ret true <->
  exists p, spawn_pip e = Ret p /\ returncode p = 0%Z.
Proof.
  rewrite result_check_pip. destruct (spawn_pip e) as [p | x].
  - split.
    + intros [= H]. exists p. split; [ reflexivity | now apply Z.eqb_eq ].
    + intros (p' & [= <-] & H). now rewrite H.
  - split; [ | intros (p & [=] & _) ].
    destruct (isinstance x "CalledProcessError"); discriminate.
Qed.

Lemma check_internet_true_iff (e : env) :
  result (check_internet e) = Ret true <->
  import_urllib_request e = Ret tt /\ urlopen_pypi e = Ret tt.
Proof.
  rewrite result_check_internet.
  destruct (import_urllib_request e) as [[] | x];
    [ destruct (urlopen_pypi e) as [[] | x] | ].
  - tauto.
  - split; [ | intros [_ [=]] ].
    destruct (isinstance x "Exception"); discriminate.
  - split; [ | intros [[=] _] ].
    destruct (isinstance x "Exception"); discriminate.
Qed.

(** X1. The process exits with status 0 exactly on a host where the
    interpreter is a 3.x with x >= 10, the pip child is launched and exits
    with status 0, the interpreter runs in a virtual environment, the
    import and the request of the network check complete, and the
    disk-space and GPU checks return: what the latter two measure, and the
    system information, have no part in it. *)
Theorem exit_status_zero_iff (e : env) :
  snd (dunder_main e) = Exited 0 <->
  (major (sys_version_info e) = 3%Z /\ (10 <= minor (sys_version_info e))%Z)
  /\ (exists p, spawn_pip e = Ret p /\ returncode p = 0%Z)
  /\ in_venv e = true
  /\ returns (check_disk_space e) = true
  /\ (import_urllib_request e = Ret tt /\ urlopen_pypi e = Ret tt)
  /\ returns (check_gpu e) = true.
Proof.
  rewrite dunder_main_status, result_main_checks.
  rewrite <- check_pip_true_iff, <- check_internet_true_iff.
  unfold returns.
  pose proof (check_disk_space_returns_true e) as Hdisk.
  pose proof (check_gpu_returns_true e) as Hgpu.
  destruct (result (check_pip e)) as [b3 | x3];
    [ | split; [ discriminate | intros (_ & [=] & _) ] ].
  destruct (result (check_disk_space e)) as [b5 | x5];
    [ | split; [ discriminate | intros (_ & _ & _ & [=] & _) ] ].
  destruct (result (check_internet e)) as [b6 | x6];
    [ | split; [ discriminate | intros (_ & _ & _ & _ & [=] & _) ] ].
  destruct (result (check_gpu e)) as [b7 | x7];
    [ | split; [ discriminate | intros (_ & _ & _ & _ & _ & [=]) ] ].
  rewrite (Hdisk b5 eq_refl), (Hgpu b7 eq_refl).
  cbn [forallb snd]. rewrite !andb_true_r.
  destruct ((major (sys_version_info e) =? 3)%Z
            && (minor (sys_version_info e) >=? 10)%Z) eqn:Hv.
  - apply andb_true_iff in Hv. destruct Hv as [Hmaj Hmin].
    apply Z.eqb_eq in Hmaj. apply Z.geb_le in Hmin.
    destruct b3, (in_venv e), b6; cbn [andb];
      (split;
       [ intros [=]; repeat split; solve [ assumption | reflexivity ]
       | intros (_ & H3 & H4 & _ & H6 & _);
         solve [ reflexivity | discriminate H3 | discriminate H4
               | discriminate H6 ] ]) ||
      (split; [ discriminate | ];
       intros (_ & H3 & H4 & _ & H6 & _);
       solve [ discriminate H3 | discriminate H4 | discriminate H6 ]).
  - cbn [andb]. split; [ discriminate | ].
    intros ([Hmaj Hmin] & _).
    apply andb_false_iff in Hv. destruct Hv as [Hv | Hv].
    + apply Z.eqb_neq in Hv. contradiction.
    + rewrite Z.geb_leb in Hv. apply Z.leb_gt in Hv. lia.
Qed.

(** X2. When the process ends through [sys.exit], the status is 0 or 1,
    and [check_pip], [check_disk_space], [check_internet] and [check_gpu]
    have all returned: a run in which one of them raises never ends with
    an exit status of [main]. *)
Theorem sys_exit_status_is_0_or_1
  (e : env) (status : Z) (H : snd (dunder_main e) = Exited status) :
  (status = 0%Z \/ status = 1%Z)
  /\ returns (check_pip e) = true
  /\ returns (check_disk_space e) = true
  /\ returns (check_internet e) = true
  /\ returns (check_gpu e) = true.
Proof.
  rewrite dunder_main_status, result_main_checks in H. unfold returns.
  destruct (result (check_pip e)) as [b3 | x3]; [ | discriminate ].
  destruct (result (check_disk_space e)) as [b5 | x5]; [ | discriminate ].
  destruct (result (check_internet e)) as [b6 | x6]; [ | discriminate ].
  destruct (result (check_gpu e)) as [b7 | x7]; [ | discriminate ].
  split; [ | repeat split ].
  injection H as <-.
  match goal with |- context [ if ?c then _ else _ ] => destruct c end;
    [ now left | now right ].
Qed.

Lemma sys_exit_status_is_0_or_1_witness :
  snd (dunder_main pip_broken) = Exited 1
  /\ returns (check_pip pip_broken) = true.
Proof.
  split; [ reflexivity | ].
  apply (sys_exit_status_is_0_or_1 pip_broken 1%Z eq_refl).
Defined.

(** X3. Whenever the seven checks have run, the rows of the system
    information, of the disk space and of the GPU are recorded as passed,
    whatever the host answered: the seven names are in the order of the
    source, and at least three checks are counted as passed. *)
Theorem advisory_rows_always_pass
  (e : env) (checks : list (string * bool))
  (H : result (main_checks e) = Ret checks) :
  map fst checks =
  ["Python Version"; "System Info"; "pip"; "Virtual Environment";
   "Disk Space"; "Internet"; "GPU (Optional)"]%string
  /\ nth_error checks 1 = Some ("System Info"%string, true)
  /\ nth_error checks 4 = Some ("Disk Space"%string, true)
  /\ nth_error checks 6 = Some ("GPU (Optional)"%string, true)
  /\ 3 <= count_passed checks.
Proof.
  rewrite result_main_checks in H.
  pose proof (check_disk_space_returns_true e) as Hdisk.
  pose proof (check_gpu_returns_true e) as Hgpu.
  destruct (result (check_pip e)) as [b3 | x3]; [ | discriminate ].
  destruct (result (check_disk_space e)) as [b5 | x5]; [ | discriminate ].
  destruct (result (check_internet e)) as [b6 | x6]; [ | discriminate ].
  destruct (result (check_gpu e)) as [b7 | x7]; [ | discriminate ].
  rewrite (Hdisk b5 eq_refl), (Hgpu b7 eq_refl) in H.
  injection H as <-.
  repeat (split; [ reflexivity | ]).
  rewrite !count_passed_cons.
  destruct (_ && _), b3, (in_venv e), b6; cbn; lia.
Qed.

Lemma advisory_rows_always_pass_witness :
  nth_error
    [("Python Version", true); ("System Info", true); ("pip", false);
     ("Virtual Environment", true); ("Disk Space", true); ("Internet", true);
     ("GPU (Optional)", true)]%string 4
  = Some ("Disk Space"%string, true).
Proof.
  apply (advisory_rows_always_pass pip_broken). reflexivity.
Defined.

End DriverMore.

(** *** Further properties of the summary *)

Section SummaryMore.
Import Py Host Setup Hosts MoreHosts.

Lemma len_chars_app (s t : string) :
  len_chars (s ++ t) = len_chars s + len_chars t.
Proof.
  induction s as [ | c s IH ]; [ reflexivity | ].
  cbn [String.append len_chars]. rewrite IH. apply Nat.add_assoc.
Qed.

(** X4. The number of passed checks the summary prints is the number of
    recorded outcomes that are true: with the number of false ones it adds
    up to the total, it never exceeds the total, and it equals the total
    exactly when no recorded outcome is false. *)
Theorem passed_plus_failed_is_total (checks : list (string * bool)) :
  count_passed checks = length (filter (fun c => snd c) checks)
  /\ count_passed checks + length (filter (fun c => negb (snd c)) checks)
     = length checks
  /\ count_passed checks <= length checks
  /\ (count_passed checks = length checks <->
      forall c, In c checks -> snd c = true).
Proof.
  assert (Hsum : count_passed checks
                 + length (filter (fun c => negb (snd c)) checks)
                 = length checks).
  { induction checks as [ | [name r] checks IH ]; [ reflexivity | ].
    rewrite count_passed_cons. cbn [filter snd length].
    destruct r; cbn [negb length]; lia. }
  split; [ | split; [ exact Hsum | split; [ lia | ] ] ].
  - clear Hsum.
    induction checks as [ | [name r] checks IH ]; [ reflexivity | ].
    rewrite count_passed_cons. cbn [filter snd].
    destruct r; cbn [length]; rewrite IH; reflexivity.
  - rewrite <- Nat.eqb_eq, all_passed_iff, forallb_forall. reflexivity.
Qed.

(** X5. A row of the summary is "✓ PASS" for a check that returned [True]
    and "✗ FAIL" for one that returned [False], padded with two spaces to
    a field of exactly eight characters, then " - " and the name of the
    check: the name starts at the same column in a passed and in a failed
    row, and a row is eleven characters longer than the name. *)
Theorem summary_rows_align (name : string) (r : bool) :
  summary_row (name, r) =
  ((if r then "✓ PASS  " else "✗ FAIL  ") ++ " - " ++ name)%string
  /\ len_chars (if r then "✓ PASS  " else "✗ FAIL  ")%string = 8
  /\ len_chars (summary_row (name, r)) = 11 + len_chars name.
Proof.
  split; [ apply summary_row_eq | ]. split; [ now destruct r | ].
  rewrite summary_row_eq, !len_chars_app. now destruct r.
Qed.

(** X11. When a check raises, [main] stops there: nothing is printed after
    what the checks printed up to the raise, no summary in particular, and
    the process ends with that exception.  For [check_pip] this is after
    the version and system-information checks and the header of the pip
    check; the four checks that follow are not run. *)
Theorem main_stops_at_first_raise (e : env) (x : exn) :
  (result (main_checks e) = Raise x ->
   main e =
   ([nl ++ str_mul "=" 60; "  CHATTERBOX TTS - ENVIRONMENT SETUP CHECKER";
     "  Step 1 of 5: Verify Your System"; str_mul "=" 60]%string
    ++ printed (main_checks e), Raise x)
   /\ snd (dunder_main e) = Uncaught x)
  /\ (result (check_pip e) = Raise x ->
      main_checks e =
      (printed (check_python_version e) ++ printed (check_system_info e)
       ++ printed (check_pip e), Raise x)).
Proof.
  split.
  - intros H. rewrite dunder_main_status, main_eq, H.
    now rewrite app_nil_r.
  - intros H. unfold main_checks.
    rewrite (bind_returns _ _ _ (result_check_python_version e)); cbn beta.
    rewrite (bind_returns _ _ _ (result_check_system_info e)); cbn beta.
    rewrite (bind_raises _ _ _ H).
    reflexivity.
Qed.

Lemma main_stops_at_first_raise_witness :
  printed (main pip_no_launch) =
  ([nl ++ str_mul "=" 60; "  CHATTERBOX TTS - ENVIRONMENT SETUP CHECKER";
    "  Step 1 of 5: Verify Your System"; str_mul "=" 60]%string
   ++ printed (check_python_version pip_no_launch)
   ++ printed (check_system_info pip_no_launch)
   ++ printed (check_pip pip_no_launch)).
Proof.
  pose (x := mk_exn FileNotFoundError
               "[Errno 2] No such file or directory: '/home/u/chatterbox_env/bin/python'").
  destruct (main_stops_at_first_raise pip_no_launch x) as [Hmain Hpip].
  rewrite (proj1 (Hmain eq_refl)), (Hpip eq_refl). reflexivity.
Defined.

End SummaryMore.

(** *** Further properties of the checks *)

Section ChecksMore.
Import Py Host Setup Hosts MoreHosts.

Lemma for_each_prints {A} (xs : list A) (body : A -> M unit)
  (texts : A -> list string) :
  (forall x, In x xs -> body x = (texts x, Ret tt)) ->
  for_each xs body = (flat_map texts xs, Ret tt).
Proof.
  induction xs as [ | x xs IH ]; intros Hbody; [ reflexivity | ].
  cbn [for_each flat_map].
  rewrite (Hbody x (or_introl eq_refl)), IH;
    [ reflexivity | intros y Hy; apply Hbody; now right ].
Qed.

(** X6. When the pip child is launched and exits with a status other than
    0, [check_pip] returns [False] and prints the same two texts after its
    header whatever the status and whatever the child wrote: the captured
    output of a failing pip is never shown. *)
Theorem check_pip_failure_hides_child_output
  (e : env) (p : CompletedProcess)
  (Hspawn : spawn_pip e = Ret p) (Hstatus : returncode p <> 0%Z) :
  check_pip e =
  (printed (print_header "Checking pip (Package Manager)")
   ++ ["✗ pip is not installed or not working";
       "   Install pip: python -m ensurepip --upgrade"]%string,
   Ret false).
Proof.
  unfold check_pip, subprocess_run_check. rewrite Hspawn.
  apply Z.eqb_neq in Hstatus.
  cbn - [String.append str_int Z.eqb]. rewrite Hstatus. reflexivity.
Qed.

Lemma check_pip_failure_hides_child_output_witness :
  result (check_pip pip_broken) = Ret false.
Proof.
  rewrite (check_pip_failure_hides_child_output pip_broken
             {| returncode := 1; stdout := "" |} eq_refl);
    [ reflexivity | discriminate ].
Defined.

(** X7. [check_venv] prints the Windows activation command exactly when the
    interpreter is not in a virtual environment and [platform.system()] is
    "Windows", and the POSIX one exactly when it is not in a virtual
    environment on any other system; in a virtual environment it prints
    neither. *)
Theorem check_venv_activation_hint (e : env) :
  (In "    chatterbox_env\Scripts\activate"%string (printed (check_venv e)) <->
   in_venv e = false /\ platform_system e = "Windows"%string)
  /\ (In "    source chatterbox_env/bin/activate"%string (printed (check_venv e)) <->
      in_venv e = false /\ platform_system e <> "Windows"%string).
Proof.
  unfold check_venv.
  destruct (in_venv e).
  - split; (split; [ | intros [[=] _] ]); cbv - [sys_prefix];
      intros H; repeat destruct H as [H | H]; try discriminate H;
      contradiction.
  - destruct (String.eqb_spec (platform_system e) "Windows") as [Hw | Hw].
    + split; split.
      * intros _. now split.
      * intros _. cbv. tauto.
      * cbv. intros H.
        repeat destruct H as [H | H]; try discriminate H; contradiction.
      * intros [_ H]. contradiction.
    + split; split.
      * cbv. intros H.
        repeat destruct H as [H | H]; try discriminate H; contradiction.
      * intros [_ H]. contradiction.
      * intros _. now split.
      * intros _. cbv. tauto.
Qed.

(** X8. With [torch] present and CUDA available, [check_gpu] prints the
    number of devices and then, for each index from 0 up to that number and
    in this order, the name and the memory of the device; for a number of
    zero or less it prints no device.  It returns [True]. *)
Theorem check_gpu_lists_devices_in_order
  (e : env) (t : torch_cuda) (n : Z) (names : Z -> string) (mems : Z -> N)
  (Himport : import_torch e = Ret t)
  (Havailable : is_available t = Ret true)
  (Hcount : device_count t = Ret n)
  (Hdevices : forall i : Z, (0 <= i < n)%Z ->
     get_device_name t i = Ret (names i) /\ total_memory t i = Ret (mems i)) :
  check_gpu e =
  (printed (print_header "Checking GPU Availability (Optional)")
   ++ ["Attempting to detect CUDA-capable GPU...";
       "(This requires PyTorch, which will be installed in step 2)";
       "✓ CUDA GPU detected: " ++ str_int n ++ " device(s)"]%string
   ++ flat_map
        (fun i => [("   GPU " ++ str_int i ++ ": " ++ names i)%string;
                   ("   Memory: " ++ fmt_gb_2f (mems i) ++ " GB")%string])
        (map Z.of_nat (seq 0 (Z.to_nat n))),
   Ret true)
  /\ ((n <= 0)%Z -> length (printed (check_gpu e)) = 6).
Proof.
  assert (Hloop :
    for_each (range n) (fun i =>
      (gpu_name <- call (get_device_name t i) ;;
       gpu_memory <- call (total_memory t i) ;;
       print ("   GPU " ++ str_int i ++ ": " ++ gpu_name) ;;
       print ("   Memory: " ++ fmt_gb_2f gpu_memory ++ " GB"))%py)
    = (flat_map
         (fun i => [("   GPU " ++ str_int i ++ ": " ++ names i)%string;
                    ("   Memory: " ++ fmt_gb_2f (mems i) ++ " GB")%string])
         (range n), Ret tt)).
  { apply for_each_prints. intros i Hi. apply In_range in Hi.
    destruct (Hdevices i Hi) as [-> ->]. reflexivity. }
  assert (Heq : check_gpu e =
    (printed (print_header "Checking GPU Availability (Optional)")
     ++ ["Attempting to detect CUDA-capable GPU...";
         "(This requires PyTorch, which will be installed in step 2)";
         "✓ CUDA GPU detected: " ++ str_int n ++ " device(s)"]%string
     ++ flat_map
          (fun i => [("   GPU " ++ str_int i ++ ": " ++ names i)%string;
                     ("   Memory: " ++ fmt_gb_2f (mems i) ++ " GB")%string])
          (range n),
     Ret true)).
  { unfold check_gpu.
    rewrite (bind_returns (call (import_torch e)) _ t Himport); cbn beta.
    rewrite (bind_returns (call (is_available t)) _ true Havailable);
      cbn beta iota.
    rewrite (bind_returns (call (device_count t)) _ n Hcount); cbn beta.
    rewrite Hloop.
    cbn - [String.append str_int fmt_gb_2f range].
    now rewrite !app_nil_r. }
  split; [ exact Heq | ].
  intros Hn. rewrite Heq. unfold range.
  replace (Z.to_nat n) with 0 by lia. reflexivity.
Qed.

Lemma check_gpu_lists_devices_in_order_witness :
  printed (check_gpu gpu_host) =
  printed (print_header "Checking GPU Availability (Optional)")
  ++ ["Attempting to detect CUDA-capable GPU...";
      "(This requires PyTorch, which will be installed in step 2)";
      "✓ CUDA GPU detected: 2 device(s)";
      "   GPU 0: NVIDIA A100"; "   Memory: 40.00 GB";
      "   GPU 1: NVIDIA T4"; "   Memory: 15.00 GB"]%string.
Proof.
  rewrite (proj1 (check_gpu_lists_devices_in_order gpu_host two_gpus 2%Z
                    (fun i => if (i =? 0)%Z then "NVIDIA A100" else "NVIDIA T4")%string
                    (fun i => if (i =? 0)%Z then 42949672960 else 16106127360)%N
                    eq_refl eq_refl eq_refl
                    (fun i _ => conj eq_refl eq_refl))).
  reflexivity.
Defined.

(** X9. The handler of [check_gpu] covers its whole [try] block: when
    [torch] is imported and a query of it raises [ImportError] (or a class
    derived from it), the check reports that PyTorch is not installed yet,
    as it does when the import itself fails, and returns [True]. *)
Theorem check_gpu_import_error_in_query
  (e : env) (t : torch_cuda) (x : exn)
  (Himport : import_torch e = Ret t)
  (Hraise : is_available t = Raise x
            \/ (is_available t = Ret true /\ device_count t = Raise x))
  (Hclass : isinstance x "ImportError" = true) :
  check_gpu e =
  (printed (print_header "Checking GPU Availability (Optional)")
   ++ ["Attempting to detect CUDA-capable GPU...";
       "(This requires PyTorch, which will be installed in step 2)";
       "⚠ PyTorch not installed yet";
       "   GPU detection will happen after running 2_install_dependencies.py"]%string,
   Ret true).
Proof.
  unfold check_gpu.
  rewrite (bind_returns (call (import_torch e)) _ t Himport); cbn beta.
  destruct Hraise as [Hq | [Ha Hq]].
  - rewrite (bind_raises (call (is_available t)) _ x Hq).
    cbn - [isinstance]. rewrite Hclass. reflexivity.
  - rewrite (bind_returns (call (is_available t)) _ true Ha); cbn beta iota.
    rewrite (bind_raises (call (device_count t)) _ x Hq).
    cbn - [isinstance]. rewrite Hclass. reflexivity.
Qed.

Lemma check_gpu_import_error_in_query_witness :
  result (check_gpu half_installed_torch) = Ret true
  /\ In "⚠ PyTorch not installed yet"%string
       (printed (check_gpu half_installed_torch)).
Proof.
  rewrite (check_gpu_import_error_in_query half_installed_torch
             cuda_part_missing
             (mk_exn ModuleNotFoundError "No module named 'torch._C'")
             eq_refl (or_introl eq_refl) eq_refl).
  split; [ reflexivity | ].
  cbv. tauto.
Defined.

End ChecksMore.

(** *** Edges of the disk-space and network checks *)

Section EdgesMore.
Import Py Host Setup Hosts MoreHosts.

Lemma hundredths_just_below_ten_gb (free : N) :
  (10732049531 <= free < 10737418240)%N -> hundredths_of_gb free = 1000%N.
Proof.
  intros Hfree. unfold hundredths_of_gb.
  change (2 ^ 30)%N with 1073741824%N.
  assert (Hq : (free * 100 / 1073741824 = 999)%N).
  { symmetry.
    apply N.div_unique with (r := (free * 100 - 999 * 1073741824)%N); lia. }
  assert (Hr : (free * 100 mod 1073741824 = free * 100 - 999 * 1073741824)%N).
  { symmetry.
    apply N.mod_unique with (q := 999%N); lia. }
  rewrite Hq, Hr.
  destruct (N.ltb_spec 1073741824 (2 * (free * 100 - 999 * 1073741824)));
    [ reflexivity | lia ].
Qed.

(** X10. The threshold is tested on the measured value and the texts show
    it rounded to two decimals: for a free space less than 0.005 GB below
    10 GB, [check_disk_space] warns of low disk space and the amount it
    shows, in both texts, is "10.00 GB". *)
Theorem low_disk_warning_can_show_ten_gb
  (e : env) (free : N)
  (Hmeasured : result (free_bytes_query e) = Ret free)
  (Hfree : (10732049531 <= free < 10 * 2 ^ 30)%N) :
  check_disk_space e =
  (printed (print_header "Checking Disk Space")
   ++ printed (free_bytes_query e)
   ++ ["Available disk space: 10.00 GB";
       "⚠ Low disk space: 10.00 GB";
       "   Recommended: At least 10 GB free for models and dependencies"]%string,
   Ret true).
Proof.
  change (10 * 2 ^ 30)%N with 10737418240%N in Hfree.
  assert (Hfmt : fmt_gb_2f free = "10.00"%string).
  { unfold fmt_gb_2f. now rewrite (hundredths_just_below_ten_gb free Hfree). }
  assert (Hlow : gb_ge_10 free = false).
  { unfold gb_ge_10. change (10 * 2 ^ 30)%N with 10737418240%N.
    apply N.leb_gt. lia. }
  unfold check_disk_space.
  rewrite (M_eta (free_bytes_query e)), Hmeasured.
  cbn - [fmt_gb_2f gb_ge_10 String.append].
  rewrite Hlow, Hfmt. cbn - [free_bytes_query].
  rewrite ?app_nil_r. reflexivity.
Qed.

Lemma low_disk_warning_can_show_ten_gb_witness :
  In "⚠ Low disk space: 10.00 GB"%string (printed (check_disk_space nearly_ten_gb)).
Proof.
  rewrite (low_disk_warning_can_show_ten_gb nearly_ten_gb 10737414144%N
             eq_refl);
    [ cbv; tauto | split; [ | reflexivity ]; discriminate ].
Defined.

(** X12. [check_internet] catches [Exception] only: when the import or
    the request raises something that is not derived from it (a
    [KeyboardInterrupt] while the request is pending), the exception leaves
    the check after the header is printed, and nothing is said about the
    connection. *)
Theorem check_internet_lets_interrupt_through
  (e : env) (x : exn)
  (Hraise : import_urllib_request e = Raise x
            \/ (import_urllib_request e = Ret tt /\ urlopen_pypi e = Raise x))
  (Hclass : isinstance x "Exception" = false) :
  check_internet e =
  (printed (print_header "Checking Internet Connection"), Raise x).
Proof.
  unfold check_internet.
  destruct Hraise as [-> | [-> ->]];
    cbn - [isinstance]; rewrite Hclass; reflexivity.
Qed.

Lemma check_internet_lets_interrupt_through_witness :
  snd (dunder_main interrupted) = Uncaught (mk_exn KeyboardInterrupt "").
Proof.
  rewrite dunder_main_status, result_main_checks.
  rewrite (check_internet_lets_interrupt_through interrupted
             (mk_exn KeyboardInterrupt "")
             (or_intror (conj eq_refl eq_refl)) eq_refl).
  reflexivity.
Defined.

End EdgesMore.
